(** * xeno-canto_request.py: fetch, tabulate and download recordings

    A shallow embedding of the three stages of the script
    ([get_recordings], [save_recordings_to_csv], [download_audio_files])
    over an explicit model of what they touch: the HTTP client, the
    file system and the console.  Python values are dynamically typed, so
    the decoded JSON and the table cells share one type [value], and
    every operation that Python may refuse returns in the error monad. *)

From Stdlib Require Import Ascii String.
From stdpp Require Import base option list strings pretty gmap.

Set Warnings "-register-all".
Open Scope string_scope.
Open Scope list_scope.
Open Scope Z_scope.

(** ** Python values and exceptions *)

(** What [response.json()] can return and what a table cell can hold.
    JSON numbers are integers here, as the counters of the API are;
    [VNaN] is the float pandas uses for a missing cell.  A dict is kept
    as its items in insertion order. *)
Inductive value :=
| VNone
| VBool (b : bool)
| VInt (n : Z)
| VNaN
| VStr (s : string)
| VList (l : list value)
| VDict (d : list (string * value)).

(** The exception classes the script can meet.  [RequestException] stands
    for [requests.exceptions.RequestException] and all its subclasses
    (ConnectionError, Timeout, HTTPError, MissingSchema and the
    JSONDecodeError of [response.json()]): the only class either handler
    of the script catches.  [OSError] covers its subclasses
    (FileNotFoundError, IsADirectoryError, NotADirectoryError). *)
Inductive exn :=
| RequestException (msg : string)
| KeyError (key : string)
| TypeError
| ValueError
| AttributeError
| OSError (path : string)
| EmptyDataError
| ParserError.

(** The outcome of running a piece of the script: a value, or an
    exception on its way up. *)
Inductive result (A : Type) :=
| Ok (a : A)
| Raise (e : exn).
Arguments Ok {A} a.
Arguments Raise {A} e.

#[global] Instance result_ret : MRet result := @Ok.
#[global] Instance result_bind : MBind result := λ A B f m,
  match m with
  | Ok a => f a
  | Raise e => Raise e
  end.

Fixpoint result_mapM {A B} (f : A → result B) (l : list A) : result (list B) :=
  match l with
  | [] => Ok []
  | x :: l' => y ← f x; ys ← result_mapM f l'; Ok (y :: ys)
  end.

(** ** The operations of Python the script uses *)

Fixpoint dict_get (d : list (string * value)) (k : string) : option value :=
  match d with
  | [] => None
  | (k', v) :: d' => if decide (k' = k) then Some v else dict_get d' k
  end.

(** The keys of a dict, each once, in order of first insertion. *)
Fixpoint first_seen (seen : list string) (ks : list string) : list string :=
  match ks with
  | [] => []
  | k :: ks' =>
      if decide (k ∈ seen) then first_seen seen ks'
      else k :: first_seen (k :: seen) ks'
  end.

Definition dict_keys (d : list (string * value)) : list string :=
  first_seen [] (d.*1).

(** [obj.get(k, dflt)]: only a dict has the method. *)
Definition py_get (obj : value) (k : string) (dflt : value) : result value :=
  match obj with
  | VDict d => Ok (default dflt (dict_get d k))
  | _ => Raise AttributeError
  end.

(** [obj[k]] for a string key [k]. *)
Definition py_index (obj : value) (k : string) : result value :=
  match obj with
  | VDict d =>
      match dict_get d k with
      | Some v => Ok v
      | None => Raise (KeyError k)
      end
  | _ => Raise TypeError
  end.

(** Truth value of an object, as [if obj] tests it. *)
Definition py_truthy (obj : value) : bool :=
  match obj with
  | VNone => false
  | VBool b => b
  | VInt n => negb (Z.eqb n 0)
  | VNaN => true
  | VStr s => negb (String.eqb s EmptyString)
  | VList l => match l with [] => false | _ => true end
  | VDict d => match d with [] => false | _ => true end
  end.

Fixpoint chars (s : string) : list string :=
  match s with
  | EmptyString => []
  | String a s' => String a EmptyString :: chars s'
  end.

(** Iterating an object: a list gives its elements, a str its characters,
    a dict its keys; nothing else is iterable. *)
Definition py_iter (obj : value) : result (list value) :=
  match obj with
  | VList l => Ok l
  | VStr s => Ok (VStr <$> chars s)
  | VDict d => Ok (VStr <$> dict_keys d)
  | _ => Raise TypeError
  end.

Fixpoint join (sep : string) (l : list string) : string :=
  match l with
  | [] => EmptyString
  | [s] => s
  | s :: l' => s +:+ sep +:+ join sep l'
  end.

Definition as_str (v : value) : result string :=
  match v with
  | VStr s => Ok s
  | _ => Raise TypeError
  end.

(** [sep.join(obj)]: every item of the iterable must be a str. *)
Definition py_join (sep : string) (obj : value) : result string :=
  items ← py_iter obj;
  strs ← result_mapM as_str items;
  Ok (join sep strs).

(** [int(s)] for a str: surrounding white space, an optional sign, then
    decimal digits, where single underscores may separate digits. *)
Definition is_space (a : ascii) : bool :=
  let n := Z.of_N (N_of_ascii a) in
  ((9 <=? n) && (n <=? 13)) || ((28 <=? n) && (n <=? 32)).

Definition digit_of (a : ascii) : option Z :=
  let n := Z.of_N (N_of_ascii a) in
  if (48 <=? n) && (n <=? 57) then Some (n - 48) else None.

Fixpoint parse_digits (acc : Z) (after_digit : bool) (s : list ascii) : option Z :=
  match s with
  | [] => if after_digit then Some acc else None
  | a :: s' =>
      if Ascii.eqb a "_" then
        if after_digit then parse_digits acc false s' else None
      else
        match digit_of a with
        | Some d => parse_digits (10 * acc + d) true s'
        | None => None
        end
  end.

Fixpoint lstrip (s : list ascii) : list ascii :=
  match s with
  | a :: s' => if is_space a then lstrip s' else s
  | [] => []
  end.

Definition strip (s : list ascii) : list ascii :=
  reverse (lstrip (reverse (lstrip s))).

Definition int_of_str (s : string) : option Z :=
  match strip (list_ascii_of_string s) with
  | a :: s' =>
      if Ascii.eqb a "-" then Z.opp <$> parse_digits 0 false s'
      else if Ascii.eqb a "+" then parse_digits 0 false s'
      else parse_digits 0 false (a :: s')
  | [] => None
  end.

(** [int(obj)]. *)
Definition py_int (obj : value) : result Z :=
  match obj with
  | VInt n => Ok n
  | VBool b => Ok (if b then 1 else 0)
  | VStr s =>
      match int_of_str s with
      | Some n => Ok n
      | None => Raise ValueError
      end
  | VNaN => Raise ValueError
  | VNone | VList _ | VDict _ => Raise TypeError
  end.

(** ** The world the script runs in *)

(** What the server sends back for one GET.  The HTTP client is not part
    of the repository; a response is described by what its three methods
    give: [status_error] is the HTTPError that [raise_for_status] raises
    for an error status ([None] for a success status), [json_result] is
    the decoded body or the message of the JSONDecodeError that
    [response.json()] raises, [content] is the raw body. *)
Record response := Response {
  status_error : option string;
  json_result : string + value;
  content : string;
}.

(** [requests.get] either raises for a network failure (connection
    refused, time-out, ...) or returns a response. *)
Inductive http_result :=
| NetworkFailure (msg : string)
| Responds (r : response).

(** A resolved path: its components from the working directory, or from
    the root when the first component is ["/"]. *)
Abbreviation fpath := (list string) (only parsing).

Inductive file_data :=
| Table (columns : list string) (rows : list (list value))
| Bytes (data : string).

Inductive event :=
| EGet (url : string)
| ESleep (seconds : Z)
| EPrint (line : string)
| EOpen (path : string).

(** [net n url] is the outcome of the [n]-th GET of the run (counted from
    0) when it asks for [url]; [sent] counts the GETs issued so far;
    [trace] lists what the script did, oldest first. *)
Record world := World {
  net : nat → string → http_result;
  sent : nat;
  dirs : gset fpath;
  files : gmap fpath file_data;
  trace : list event;
}.

Definition emit (e : event) (w : world) : world :=
  World (net w) (sent w) (dirs w) (files w) (trace w ++ [e]).

(** Computations of the script: they read and change the world, and end
    with a value or an exception. *)
Definition M (A : Type) : Type := world → result A * world.

#[global] Instance M_ret : MRet M := λ A a w, (Ok a, w).
#[global] Instance M_bind : MBind M := λ A B f m w,
  match m w with
  | (Ok a, w') => f a w'
  | (Raise e, w') => (Raise e, w')
  end.

Definition lift {A} (r : result A) : M A := λ w, (r, w).

(** [try: body except requests.exceptions.RequestException as e: handler] *)
Definition try_except_request {A} (body : M A) (handler : string → M A) : M A :=
  λ w,
    match body w with
    | (Raise (RequestException msg), w') => handler msg w'
    | out => out
    end.

(** [if test: body] *)
Definition when_ (test : bool) (body : M unit) : M unit :=
  if test then body else mret ().

Definition print (line : string) : M unit := λ w, (Ok (), emit (EPrint line) w).

Definition sleep (seconds : Z) : M unit := λ w, (Ok (), emit (ESleep seconds) w).

(** [requests.get(url)] *)
Definition requests_get (url : string) : M response := λ w,
  let w' := World (net w) (S (sent w)) (dirs w) (files w) (trace w ++ [EGet url]) in
  match net w (sent w) url with
  | NetworkFailure msg => (Raise (RequestException msg), w')
  | Responds r => (Ok r, w')
  end.

(** [response.raise_for_status()] *)
Definition raise_for_status (r : response) : result unit :=
  match status_error r with
  | Some msg => Raise (RequestException msg)
  | None => Ok ()
  end.

(** [response.json()] *)
Definition response_json (r : response) : result value :=
  match json_result r with
  | inl msg => Raise (RequestException msg)
  | inr data => Ok data
  end.

(** ** Stage 1: [get_recordings] *)

Definition BASE_URL : string := "https://xeno-canto.org/api/2/recordings".

(** [f"{BASE_URL}?query={query}&page={page}"] *)
Definition page_url (query : string) (page : Z) : string :=
  BASE_URL +:+ "?query=" +:+ query +:+ "&page=" +:+ pretty page.

(** How one turn of the [while] loop ends. *)
Inductive flow := Break | NextPage.

(** The body of the loop for one page.  The three calls that can raise a
    request exception come before [recordings.extend], so the handler
    leaves the loop with the list as it was when the turn began. *)
Definition fetch_page (query : string) (page : Z) (recordings : list value)
  : M (flow * list value) :=
  let url := page_url query page in
  try_except_request
    (response ← requests_get url;
     lift (raise_for_status response);;
     data ← lift (response_json response);
     new ← lift (found ← py_get data "recordings" (VList []); py_iter found);
     let recordings := recordings ++ new in
     numPages ← lift (n ← py_index data "numPages"; py_int n);
     if page >=? numPages then mret (Break, recordings)
     else
       sleep 1;;
       mret (NextPage, recordings))
    (λ e,
     print ("An error occurred: " +:+ e);;
     mret (Break, recordings)).

(** [while page <= max_pages: ...], with [page += 1] on [NextPage].  The
    recursion is on [fuel], a bound on the number of turns; [None] means
    the bound was too small, and [get_recordings_terminates] shows that
    the bound [get_recordings] starts from never is. *)
Fixpoint fetch_loop (fuel : nat) (query : string) (max_pages page : Z)
    (recordings : list value) (w : world) : option (result (list value) * world) :=
  match fuel with
  | O => None
  | S fuel' =>
      if page <=? max_pages then
        match fetch_page query page recordings w with
        | (Ok (Break, recordings), w') => Some (Ok recordings, w')
        | (Ok (NextPage, recordings), w') =>
            fetch_loop fuel' query max_pages (page + 1) recordings w'
        | (Raise e, w') => Some (Raise e, w')
        end
      else Some (Ok recordings, w)
  end.

(** The loop starts at page 1 and each turn that goes on adds one to
    [page], so [max_pages] turns and the last test are all it can take. *)
Definition get_recordings (query : string) (max_pages : Z) (w : world)
  : option (result (list value) * world) :=
  fetch_loop (S (Z.to_nat max_pages)) query max_pages 1 [] w.

(** ** The file system *)

Fixpoint split_on (sep : ascii) (s : string) : list string :=
  match s with
  | EmptyString => [EmptyString]
  | String a s' =>
      if Ascii.eqb a sep then EmptyString :: split_on sep s'
      else
        match split_on sep s' with
        | x :: xs => String a x :: xs
        | [] => [String a EmptyString]
        end
  end.

Definition is_absolute (p : string) : bool :=
  match p with
  | String a _ => Ascii.eqb a "/"
  | EmptyString => false
  end.

Fixpoint ends_with_slash (p : string) : bool :=
  match p with
  | EmptyString => false
  | String a EmptyString => Ascii.eqb a "/"
  | String _ p' => ends_with_slash p'
  end.

(** Empty components and ["."] do not count; [".."] and links are not
    interpreted. *)
Definition resolve (p : string) : fpath :=
  let names := filter (λ c, c ≠ EmptyString ∧ c ≠ ".") (split_on "/" p) in
  if is_absolute p then "/" :: names else names.

Definition is_root (p : fpath) : bool :=
  bool_decide (p = []) || bool_decide (p = ["/"]).

Definition is_dir (w : world) (p : fpath) : bool :=
  is_root p || bool_decide (p ∈ dirs w).

Definition is_file (w : world) (p : fpath) : bool :=
  bool_decide (is_Some (files w !! p)).

Definition parent (p : fpath) : fpath := removelast p.

(** The path itself and the directories above it, shortest first. *)
Definition prefixes (p : fpath) : list fpath :=
  (λ n, take n p) <$> seq 1 (length p).

(** [os.path.exists(path)] *)
Definition os_path_exists (path : string) : M bool := λ w,
  (Ok (negb (String.eqb path EmptyString) && (is_dir w (resolve path) || is_file w (resolve path))), w).

(** [os.makedirs(path, exist_ok=exist_ok)]: makes [path] and every
    missing directory above it.  It fails when a file is in the way, and
    when [path] is there already unless [exist_ok] allows a directory. *)
Definition os_makedirs (path : string) (exist_ok : bool) : M unit := λ w,
  let p := resolve path in
  if String.eqb path EmptyString then (Raise (OSError path), w)
  else if existsb (is_file w) (prefixes p) then (Raise (OSError path), w)
  else if is_dir w p then
    if exist_ok then (Ok (), w) else (Raise (OSError path), w)
  else
    (Ok (), World (net w) (sent w) (dirs w ∪ list_to_set (prefixes p)) (files w) (trace w)).

(** A file can be created or overwritten at [path] when its directory
    is there and [path] does not name a directory. *)
Definition writable (w : world) (path : string) : bool :=
  is_dir w (parent (resolve path)) && negb (is_dir w (resolve path)).

Definition write_file (path : string) (data : file_data) : M unit := λ w,
  if writable w path then
    (Ok (), World (net w) (sent w) (dirs w) (<[resolve path := data]> (files w)) (trace w))
  else (Raise (OSError path), w).

(** ** The table library *)

Record DataFrame := {
  columns : list string;
  rows : list (list value);
}.

(** [pd.DataFrame(data)] for a list of dicts: the columns are the keys in
    order of first appearance, a key a dict lacks gives NaN, and an empty
    list gives a frame without columns. *)
Definition pd_DataFrame (data : list (list (string * value))) : DataFrame :=
  let cols := first_seen [] (concat ((λ d, d.*1) <$> data)) in
  {| columns := cols;
     rows := (λ d, (λ c, default VNaN (dict_get d c)) <$> cols) <$> data |}.

(** [df.to_csv(filename, index=False, encoding='utf-8')]: the header line
    names the columns of the frame, then one line per row. *)
Definition to_csv (df : DataFrame) (filename : string) : M unit :=
  write_file filename (Table (columns df) (rows df)).

(** What a written cell is when read again: an empty field (None, NaN or
    the empty str) comes back as NaN.  The other re-typing pandas does on
    reading (numeric text becomes a number) is not represented: the
    results on [download_audio_files] hold for every stored table. *)
Definition read_cell (v : value) : value :=
  match v with
  | VNone | VNaN => VNaN
  | VStr s => if String.eqb s EmptyString then VNaN else VStr s
  | _ => v
  end.

(** [pd.read_csv(filename)]: a file whose header line names no column
    cannot be parsed.  A file of downloaded bytes is not a table; reading
    one is counted as a parse error. *)
Definition read_csv (filename : string) : M DataFrame := λ w,
  match files w !! resolve filename with
  | None => (Raise (OSError filename), w)
  | Some (Bytes _) => (Raise ParserError, w)
  | Some (Table [] _) => (Raise EmptyDataError, w)
  | Some (Table cols rs) =>
      (Ok {| columns := cols; rows := (λ r : list value, read_cell <$> r) <$> rs |}, w)
  end.

Fixpoint index_of (name : string) (cols : list string) : option nat :=
  match cols with
  | [] => None
  | c :: cols' => if decide (c = name) then Some O else S <$> index_of name cols'
  end.

(** [row[name]] for a row of a frame with columns [cols]. *)
Definition row_get (cols : list string) (row : list value) (name : string) : result value :=
  match index_of name cols with
  | Some i => Ok (default VNaN (row !! i))
  | None => Raise (KeyError name)
  end.

(** ** Stage 2: [save_recordings_to_csv] *)

(** [record.get(key)] *)
Definition plain (key : string) (record : value) : result value :=
  py_get record key VNone.

(** [record[outer].get(key) if record.get(outer) else None] *)
Definition nested (outer key : string) (record : value) : result value :=
  test ← py_get record outer VNone;
  if py_truthy test then
    inner ← py_index record outer;
    py_get inner key VNone
  else Ok VNone.

(** [", ".join(record.get("also", []))] *)
Definition also_joined (record : value) : result value :=
  found ← py_get record "also" (VList []);
  s ← py_join ", " found;
  Ok (VStr s).

(** The three shapes of expression in the dict display of
    [flattened_record], and the field of the record each one reads. *)
Inductive cell_expr :=
| Plain (key : string)
| Nested (outer key : string)
| AlsoJoined.

#[global] Instance cell_expr_eq_dec : EqDecision cell_expr.
Proof. solve_decision. Defined.

Definition eval_cell (e : cell_expr) (record : value) : result value :=
  match e with
  | Plain key => plain key record
  | Nested outer key => nested outer key record
  | AlsoJoined => also_joined record
  end.

Definition field_read (e : cell_expr) : string :=
  match e with
  | Plain key => key
  | Nested outer _ => outer
  | AlsoJoined => "also"
  end.

(** The dict display: every key with the expression that gives its
    value, in the order of the source. *)
Definition ENTRIES : list (string * cell_expr) :=
  [ ("id", Plain "id");
    ("gen", Plain "gen");
    ("sp", Plain "sp");
    ("ssp", Plain "ssp");
    ("group", Plain "group");
    ("en", Plain "en");
    ("rec", Plain "rec");
    ("cnt", Plain "cnt");
    ("loc", Plain "loc");
    ("lat", Plain "lat");
    ("lng", Plain "lng");
    ("alt", Plain "alt");
    ("type", Plain "type");
    ("sex", Plain "sex");
    ("stage", Plain "stage");
    ("method", Plain "method");
    ("url", Plain "url");
    ("file", Plain "file");
    ("file-name", Plain "file-name");
    ("sono_small", Nested "sono" "small");
    ("sono_med", Nested "sono" "med");
    ("sono_large", Nested "sono" "large");
    ("sono_full", Nested "sono" "full");
    ("osci_small", Nested "osci" "small");
    ("osci_med", Nested "osci" "med");
    ("osci_large", Nested "osci" "large");
    ("lic", Plain "lic");
    ("q", Plain "q");
    ("length", Plain "length");
    ("time", Plain "time");
    ("date", Plain "date");
    ("uploaded", Plain "uploaded");
    ("also", AlsoJoined);
    ("rmk", Plain "rmk");
    ("bird-seen", Plain "bird-seen");
    ("animal-seen", Plain "animal-seen");
    ("playback-used", Plain "playback-used");
    ("temp", Plain "temp");
    ("regnr", Plain "regnr");
    ("auto", Plain "auto");
    ("dvc", Plain "dvc");
    ("mic", Plain "mic");
    ("smp", Plain "smp") ].

(** The declared column set, in its order. *)
Definition COLUMNS : list string := ENTRIES.*1.

(** Python evaluates the display from top to bottom; the first
    expression that raises ends it. *)
Definition flattened_record (record : value) : result (list (string * value)) :=
  result_mapM (λ entry : string * cell_expr,
                 v ← eval_cell entry.2 record; Ok (entry.1, v)) ENTRIES.

Definition save_recordings_to_csv (recordings : list value) (filename : string) : M unit :=
  there ← os_path_exists "xeno-canto";
  when_ (negb there) (os_makedirs "xeno-canto" false);;
  flattened_data ← lift (result_mapM flattened_record recordings);
  let df := pd_DataFrame flattened_data in
  to_csv df filename;;
  print ("Recordings is saved into " +:+ filename).

(** ** Stage 3: [download_audio_files] *)

(** [os.path.join(a, b)] for two str; [b] must be a str. *)
Definition join_paths (a b : string) : string :=
  if is_absolute b then b
  else if String.eqb a EmptyString || ends_with_slash a then a +:+ b
  else a +:+ "/" +:+ b.

Definition os_path_join (a : string) (b : value) : result string :=
  match b with
  | VStr s => Ok (join_paths a s)
  | _ => Raise TypeError
  end.

(** [requests.get(file_url)] for a cell: the client turns what is not a
    str into one, which is never a URL it accepts, and raises
    MissingSchema or InvalidSchema without sending anything. *)
Definition requests_get_cell (url : value) : M response :=
  match url with
  | VStr s => requests_get s
  | _ => lift (Raise (RequestException "Invalid URL"))
  end.

(** [with open(output_path, "wb") as f: f.write(data)] *)
Definition write_binary (output_path : string) (data : string) : M unit := λ w,
  write_file output_path (Bytes data) (emit (EOpen output_path) w).

(** The body of the [for] loop for one row. *)
Definition download_row (output_dir : string) (cols : list string) (row : list value)
  : M unit :=
  file_url ← lift (row_get cols row "file");
  file_name ← lift (row_get cols row "file-name");
  output_path ← lift (os_path_join output_dir file_name);
  try_except_request
    (response ← requests_get_cell file_url;
     lift (raise_for_status response);;
     write_binary output_path (content response))
    (λ e,
     name ← lift (as_str file_name);
     print ("Failed to download " +:+ name +:+ ": " +:+ e)).

(** [for _, row in df.iterrows(): ...]; the progress bar is not
    represented. *)
Fixpoint download_rows (output_dir : string) (cols : list string)
    (rs : list (list value)) : M unit :=
  match rs with
  | [] => mret ()
  | row :: rs' =>
      download_row output_dir cols row;;
      download_rows output_dir cols rs'
  end.

Definition download_audio_files (csv_filename output_dir : string) : M unit :=
  df ← read_csv csv_filename;
  there ← os_path_exists output_dir;
  when_ (negb there) (os_makedirs output_dir true);;
  download_rows output_dir (columns df) (rows df).

(** ** Reading the runs *)

(** What a decoded body adds to the list, and the page count it reports:
    the two expressions of [fetch_page] that look into [data]. *)
Definition page_records (data : value) : result (list value) :=
  found ← py_get data "recordings" (VList []); py_iter found.

Definition page_count (data : value) : result Z :=
  n ← py_index data "numPages"; py_int n.



(** One GET as the loop of [get_recordings] sees it. *)
Inductive page_outcome :=
| RequestFailed (msg : string)
| PageRead (new : list value) (numPages : Z)
| Crashed (e : exn).

Definition read_page (h : http_result) : page_outcome :=
  match h with
  | NetworkFailure msg => RequestFailed msg
  | Responds r =>
      match status_error r, json_result r with
      | Some msg, _ => RequestFailed msg
      | None, inl msg => RequestFailed msg
      | None, inr data =>
          match page_records data with
          | Raise e => Crashed e
          | Ok new =>
              match page_count data with
              | Raise e => Crashed e
              | Ok numPages => PageRead new numPages
              end
          end
      end
  end.



(** The URLs asked for, in order. *)
Definition gets (t : list event) : list string :=
  omap (λ e, match e with EGet url => Some url | _ => None end) t.

(** The output paths opened, in order. *)
Definition opens (t : list event) : list string :=
  omap (λ e, match e with EOpen path => Some path | _ => None end) t.

(** The events a piece of the run added to the trace it started from. *)
Definition added (w w' : world) : list event :=
  drop (length (trace w)) (trace w').

(** A GET for an audio file that the handler of [download_row] catches:
    the GET itself raised, or [raise_for_status] does, which by
    [http_error] is the case for a status from 400 to 599 and for no
    other. *)
Definition download_fails (h : http_result) : option string :=
  match h with
  | NetworkFailure msg => Some msg
  | Responds r => status_error r
  end.

(** The world once the directory [p] is there. *)
Definition after_mkdir (p : fpath) (w : world) : world :=
  World (net w) (sent w) (dirs w ∪ {[p]}) (files w) (trace w).

(** The empty column of a flattened row: the empty str under "also",
    None elsewhere. *)
Definition empty_cell (e : cell_expr) : value :=
  match e with
  | AlsoJoined => VStr EmptyString
  | _ => VNone
  end.

(** ** Sample worlds for the examples *)

(** A world where nothing has happened yet: no directory, no file. *)
Definition fresh (net : nat → string → http_result) : world :=
  World net 0 ∅ ∅ [].

(** A well-formed answer of the API. *)
Definition page_body (numPages : Z) (recs : list value) : http_result :=
  Responds (Response None
    (inr (VDict [("numPages", VInt numPages); ("recordings", VList recs)])) EmptyString).



(** An audio file that downloads. *)
Definition audio (data : string) : http_result :=
  Responds (Response None (inl "not JSON") data).

(** The third GET of the run meets a 404, the others succeed. *)
Definition net_third_404 (n : nat) (url : string) : http_result :=
  match n with
  | 2%nat => Responds (Response (Some "404 Client Error") (inl EmptyString) EmptyString)
  | _ => audio "RIFF"
  end.

Definition sample_record (id : string) : value :=
  VDict [("id", VStr id);
         ("file", VStr ("https://xeno-canto.org/" +:+ id +:+ "/download"));
         ("file-name", VStr ("XC" +:+ id +:+ ".mp3"));
         ("also", VList [VStr "Turdus merula"; VStr "Parus major"])].

(** The lines printed, in order. *)
Definition prints (t : list event) : list string :=
  omap (λ e, match e with EPrint line => Some line | _ => None end) t.

(** A stored table of five recordings, as [download_audio_files] reads
    it, in a world where its directory is there. *)
Definition sample_cols : list string := ["id"; "file"; "file-name"].

Definition sample_row (id : Z) : list value :=
  [VInt id;
   VStr ("https://xeno-canto.org/" +:+ pretty id +:+ "/download");
   VStr ("XC" +:+ pretty id +:+ ".mp3")].

Definition world_with_table (net : nat → string → http_result) : world :=
  World net 0 {[ ["xeno-canto"] ]}
    {[ ["xeno-canto"; "recordings.csv"] :=
         Table sample_cols (sample_row <$> [1; 2; 3; 4; 5]) ]} [].

(** Two GETs done, both files saved: the world in which row 3 is tried. *)
Definition world_before_third : world :=
  World net_third_404 2 {[ ["audio"] ]}
    {[ ["audio"; "XC1.mp3"] := Bytes "RIFF"; ["audio"; "XC2.mp3"] := Bytes "RIFF" ]}
    [EGet "https://xeno-canto.org/1/download"; EOpen "audio/XC1.mp3";
     EGet "https://xeno-canto.org/2/download"; EOpen "audio/XC2.mp3"].

(** A world with the directory "audio" and nothing in it. *)
Definition world_with_audio_dir (net : nat → string → http_result) : world :=
  World net 0 {[ ["audio"] ]} ∅ [].

(** ** The entry point *)





(** ** Reading the runs, continued *)





(** The path strings that [resolve] reads as the file system does.  None
    of the components is "..", which [resolve] keeps as a name; the
    last component is a name, neither empty as after a final "/" nor
    ".", which only the path of a directory may end in; no component is
    longer than a file name may be, and no character is NUL, which
    [open] refuses with ValueError.  Links, and file systems that do not
    tell upper case from lower case, are not represented. *)
Definition plain_path (p : string) : bool :=
  match last (split_on "/" p) with
  | Some c => negb (String.eqb c EmptyString) && negb (String.eqb c ".")
  | None => false
  end
  && forallb (λ c, negb (String.eqb c "..") && (String.length c <=? 255)%nat)
       (split_on "/" p)
  && forallb (λ a, negb (Ascii.eqb a Ascii.zero)) (list_ascii_of_string p).

(** A path from the root and a path from the working directory are kept
    apart by [resolve], though they can name one file: two paths are
    compared only when both start from the same place. *)
Definition same_start (p q : string) : bool :=
  Bool.eqb (is_absolute p) (is_absolute q).


(** The fields of a record that the dict display reads. *)
Definition FIELDS : list string := (λ entry : string * cell_expr, field_read entry.2) <$> ENTRIES.



(** A record with its sonogram URLs and a field the table does not have. *)
Definition record_with_sono : list (string * value) :=
  [("id", VStr "881");
   ("sono", VDict [("small", VStr "//xeno-canto.org/sono/881-small.png");
                   ("full", VStr "//xeno-canto.org/sono/881-full.png")]);
   ("file", VStr "https://xeno-canto.org/881/download");
   ("file-name", VStr "XC881.mp3")].

(** ** Status codes *)

(** A response carries a status code, and [raise_for_status] of the
    client goes by it alone: it raises HTTPError for the codes 400 to
    599, with the message below, and returns for every other code.  The
    client follows a redirect that names a location; a 3xx answer that
    names none (300 Multiple Choices, 304 Not Modified) is handed to the
    caller as it is. *)
Definition http_error (code : Z) (reason url : string) : option string :=
  if (400 <=? code) && (code <? 500) then
    Some (pretty code +:+ " Client Error: " +:+ reason +:+ " for url: " +:+ url)
  else if (500 <=? code) && (code <? 600) then
    Some (pretty code +:+ " Server Error: " +:+ reason +:+ " for url: " +:+ url)
  else None.

(** The success codes, 2xx. *)
Definition success_status (code : Z) : bool :=
  (200 <=? code) && (code <? 300).

(** The answer to a GET for [url] with status [code] and the bytes
    [body], which are not JSON. *)
Definition answers (code : Z) (reason url body : string) : http_result :=
  Responds (Response (http_error code reason url) (inl "not JSON") body).

(** Every GET is answered 300 with a page of links. *)
Definition net_multiple_choices (n : nat) (url : string) : http_result :=
  answers 300 "Multiple Choices" url "<html>choose</html>".

(** Every GET is answered 304, without a body. *)
Definition net_not_modified (n : nat) (url : string) : http_result :=
  answers 304 "Not Modified" url EmptyString.

(** The directory "audio" with the file that an earlier run saved for
    recording 3. *)
Definition world_with_old_audio (net : nat → string → http_result) : world :=
  World net 0 {[ ["audio"] ]} {[ ["audio"; "XC3.mp3"] := Bytes "RIFF" ]} [].

(** ** Records as the dict display takes them *)





(** ** Stage 1: the fetch loop *)

Arguments page_url : simpl never.



(** One turn of the loop, by the outcome of its GET. *)
Lemma fetch_page_step query page recordings w :
  fetch_page query page recordings w =
    let w1 := World (net w) (S (sent w)) (dirs w) (files w)
                    (trace w ++ [EGet (page_url query page)]) in
    match read_page (net w (sent w) (page_url query page)) with
    | RequestFailed msg =>
        (Ok (Break, recordings), emit (EPrint ("An error occurred: " +:+ msg)) w1)
    | PageRead new numPages =>
        if page >=? numPages then (Ok (Break, recordings ++ new), w1)
        else (Ok (NextPage, recordings ++ new), emit (ESleep 1) w1)
    | Crashed e => (Raise e, w1)
    end.
Proof.
  unfold fetch_page, try_except_request, requests_get, read_page,
    page_records, page_count, lift, mbind, M_bind, mret, M_ret.
  destruct (net w (sent w) (page_url query page)) as [msg|[[msg|] [msg'|data] c]];
    simpl; try reflexivity.
  destruct data as [| | | | |l|d]; simpl; try reflexivity.
  destruct (dict_get d "recordings") as [[]|]; simpl; try reflexivity;
    destruct (dict_get d "numPages") as [[]|]; simpl; try reflexivity;
    repeat case_match; simplify_eq; reflexivity.
Qed.

Lemma fetch_loop_unfold fuel query max_pages page recordings w :
  fetch_loop (S fuel) query max_pages page recordings w =
    if page <=? max_pages then
      match fetch_page query page recordings w with
      | (Ok (Break, recordings), w') => Some (Ok recordings, w')
      | (Ok (NextPage, recordings), w') =>
          fetch_loop fuel query max_pages (page + 1) recordings w'
      | (Raise e, w') => Some (Raise e, w')
      end
    else Some (Ok recordings, w).
Proof. reflexivity. Qed.

(** The loop ends within the turns counted from [page] to [max_pages]. *)
Lemma fetch_loop_terminates fuel query max_pages page recordings w :
  (Z.to_nat (max_pages - page + 1) < fuel)%nat →
  is_Some (fetch_loop fuel query max_pages page recordings w).
Proof.
  revert page recordings w.
  induction fuel as [|fuel IH]; intros page recordings w Hfuel; [lia|].
  rewrite fetch_loop_unfold.
  destruct (Z.leb_spec page max_pages) as [Hle|Hgt]; [|by eexists].
  rewrite fetch_page_step; simpl.
  destruct (read_page _) as [msg|new numPages|e]; try by eexists.
  destruct (page >=? numPages); [by eexists|].
  apply IH. lia.
Qed.

Lemma get_recordings_terminates query max_pages w :
  is_Some (get_recordings query max_pages w).
Proof. apply fetch_loop_terminates. lia. Qed.


Lemma added_app w w' evs :
  trace w' = trace w ++ evs → added w w' = evs.
Proof. unfold added. intros ->. by rewrite drop_app_length. Qed.






(** A body that lacks "recordings" is no failure for the code: the page
    adds nothing and the loop goes on to the next one. *)
Lemma get_recordings_goes_on_without_records :
  let net n (url : string) :=
    match n with
    | O => Responds (Response None (inr (VDict [("numPages", VInt 2)])) EmptyString)
    | _ => page_body 2 [VStr "XC9"]
    end in
  (λ out, (out.1, gets (trace out.2))) <$> get_recordings "q" 2 (fresh net) =
    Some (Ok [VStr "XC9"], [page_url "q" 1; page_url "q" 2]).
Proof. vm_compute. reflexivity. Qed.




(** ** Stage 2: flattening and the table *)

Arguments resolve : simpl never.

Lemma result_mapM_cons {A B} (f : A → result B) (x : A) (l : list A) :
  result_mapM f (x :: l) =
    match f x with
    | Ok y =>
        match result_mapM f l with
        | Ok ys => Ok (y :: ys)
        | Raise e => Raise e
        end
    | Raise e => Raise e
    end.
Proof. reflexivity. Qed.

Lemma result_mapM_Ok {A B} (f : A → result B) (l : list A) (ys : list B) :
  result_mapM f l = Ok ys ↔ Forall2 (λ x y, f x = Ok y) l ys.
Proof.
  revert ys. induction l as [|x l IH]; intros ys.
  - simpl. split; [intros [= <-]; constructor|by inversion 1].
  - rewrite result_mapM_cons. split.
    + destruct (f x) as [y|e] eqn:Hx; [|done].
      destruct (result_mapM f l) as [ys'|e] eqn:Hl; [|done].
      intros [= <-]. constructor; [done|by apply IH].
    + inversion 1 as [|? y ? ys' Hy Hys]; subst.
      apply IH in Hys. by rewrite Hy, Hys.
Qed.

Lemma COLUMNS_NoDup : NoDup COLUMNS.
Proof. apply (bool_decide_unpack _). vm_compute. exact I. Qed.

Lemma COLUMNS_length : length COLUMNS = 43%nat.
Proof. reflexivity. Qed.

(** A flattened record has the declared keys, in their order, and under
    each key the value of its expression. *)
Lemma flattened_record_entries record row :
  flattened_record record = Ok row ↔
  Forall2 (λ (entry : string * cell_expr) (kv : string * value),
             eval_cell entry.2 record = Ok kv.2 ∧ kv.1 = entry.1) ENTRIES row.
Proof.
  unfold flattened_record. rewrite result_mapM_Ok.
  split; intros Hall; eapply Forall2_impl; try exact Hall;
    intros [name e] [k v]; simpl;
    destruct (eval_cell e record) as [v'|err]; simpl.
  - by intros [= <- <-].
  - done.
  - by intros [[= <-] <-].
  - by intros [? _].
Qed.


Lemma dict_get_entries (entries : list (string * cell_expr)) record row name e :
  Forall2 (λ (entry : string * cell_expr) (kv : string * value),
             eval_cell entry.2 record = Ok kv.2 ∧ kv.1 = entry.1) entries row →
  NoDup entries.*1 →
  (name, e) ∈ entries →
  ∃ v, eval_cell e record = Ok v ∧ dict_get row name = Some v.
Proof.
  induction 1 as [|[name' e'] [k v] entries row [Hv Hk] _ IH];
    intros Hnodup Hin; simpl in *; [by apply elem_of_nil in Hin|].
  subst k. apply NoDup_cons in Hnodup as [Hfresh Hnodup].
  apply elem_of_cons in Hin as [[= -> ->]|Hin].
  - exists v. by rewrite decide_True.
  - rewrite decide_False; [by apply IH|].
    intros ->. apply Hfresh. apply list_elem_of_fmap. by exists (name, e).
Qed.

Lemma flattened_record_cell record row name e :
  flattened_record record = Ok row →
  (name, e) ∈ ENTRIES →
  ∃ v, eval_cell e record = Ok v ∧ dict_get row name = Some v.
Proof.
  rewrite flattened_record_entries. intros Hall Hin.
  by eapply dict_get_entries; [exact Hall|apply COLUMNS_NoDup|].
Qed.

Lemma eval_cell_absent d e :
  dict_get d (field_read e) = None →
  eval_cell e (VDict d) = Ok (empty_cell e).
Proof.
  destruct e as [key|outer key|]; simpl; intros Hnone.
  - unfold plain; simpl. by rewrite Hnone.
  - unfold nested; simpl. by rewrite Hnone.
  - unfold also_joined; simpl. by rewrite Hnone.
Qed.


(** Membership in a list that is written out. *)
Ltac in_entries := apply (bool_decide_unpack _); vm_compute; exact I.

(** A record whose "sono", "osci" and "also" fields are absent, whatever
    else it holds, is flattened without error. *)
Lemma flattened_record_without_nested (d : list (string * value)) :
  dict_get d "sono" = None →
  dict_get d "osci" = None →
  dict_get d "also" = None →
  ∃ row, flattened_record (VDict d) = Ok row.
Proof.
  intros Hsono Hosci Halso.
  unfold flattened_record, ENTRIES.
  repeat (rewrite result_mapM_cons;
          cbn [eval_cell plain nested also_joined py_get mbind result_bind fst snd]);
    rewrite ?Hsono, ?Hosci, ?Halso;
    cbn [default py_truthy py_join py_iter result_mapM join mbind result_bind].
  by eexists.
Qed.

(** The sub-columns of an absent "sono" or "osci" mapping. *)
Lemma flattened_record_absent_image_urls (d : list (string * value)) row :
  flattened_record (VDict d) = Ok row →
  (dict_get d "sono" = None →
     dict_get row "sono_small" = Some VNone ∧ dict_get row "sono_med" = Some VNone ∧
     dict_get row "sono_large" = Some VNone ∧ dict_get row "sono_full" = Some VNone)
  ∧ (dict_get d "osci" = None →
     dict_get row "osci_small" = Some VNone ∧ dict_get row "osci_med" = Some VNone ∧
     dict_get row "osci_large" = Some VNone).
Proof.
  intros Hrow.
  assert (Hcell : ∀ name outer key,
            (name, Nested outer key) ∈ ENTRIES →
            dict_get d outer = None → dict_get row name = Some VNone).
  { intros name outer key Hin Hnone.
    destruct (flattened_record_cell _ _ _ _ Hrow Hin) as (v & Hv & Hget).
    rewrite (eval_cell_absent d (Nested outer key) Hnone) in Hv.
    by simplify_eq. }
  split; intros Hnone; repeat split.
  - apply (Hcell "sono_small" "sono" "small"); [in_entries|done].
  - apply (Hcell "sono_med" "sono" "med"); [in_entries|done].
  - apply (Hcell "sono_large" "sono" "large"); [in_entries|done].
  - apply (Hcell "sono_full" "sono" "full"); [in_entries|done].
  - apply (Hcell "osci_small" "osci" "small"); [in_entries|done].
  - apply (Hcell "osci_med" "osci" "med"); [in_entries|done].
  - apply (Hcell "osci_large" "osci" "large"); [in_entries|done].
Qed.


Lemma also_cell_absent_example :
  flattened_record (VDict []) ≫= (λ row, Ok (dict_get row "also")) = Ok (Some (VStr EmptyString)).
Proof. vm_compute. reflexivity. Qed.

(** *** The frame built from flattened records *)






(** *** Writing the table *)

Lemma resolve_xeno_canto : resolve "xeno-canto" = ["xeno-canto"].
Proof. vm_compute. reflexivity. Qed.

(** Lines 52-53: once they are passed the directory "xeno-canto" is
    there, unless a file of that name is in the way. *)
Lemma xeno_canto_step {A} (rest : M A) (w : world) :
  files w !! ["xeno-canto"] = None →
  (there ← os_path_exists "xeno-canto";
   when_ (negb there) (os_makedirs "xeno-canto" false);;
   rest) w = rest (after_mkdir ["xeno-canto"] w).
Proof.
  intros Hfile.
  unfold mbind, M_bind, os_path_exists, os_makedirs, when_, is_file.
  rewrite resolve_xeno_canto.
  change (String.eqb "xeno-canto" EmptyString) with false.
  change (prefixes ["xeno-canto"]) with [["xeno-canto"]].
  cbn [negb andb existsb orb]. unfold is_file. rewrite Hfile.
  rewrite (bool_decide_eq_false_2 (is_Some None)) by (by intros [? ?]).
  rewrite orb_false_r.
  destruct (is_dir w ["xeno-canto"]) eqn:Hdir; cbn [negb mret M_ret orb].
  - f_equal. unfold after_mkdir. destruct w as [n s ds fs t]; simpl in *.
    f_equal. unfold is_dir in Hdir; simpl in Hdir.
    apply bool_decide_eq_true_1 in Hdir.
    rewrite (union_comm_L ds). symmetry.
    by apply subseteq_union_1_L, singleton_subseteq_l.
  - rewrite Hfile, (bool_decide_eq_false_2 (is_Some None)) by (by intros [? ?]).
    rewrite Hdir. cbn [orb].
    unfold after_mkdir. by rewrite list_to_set_singleton_L.
Qed.

(** The whole of [save_recordings_to_csv], by what its steps meet. *)
Lemma save_recordings_to_csv_step recordings filename w :
  files w !! ["xeno-canto"] = None →
  save_recordings_to_csv recordings filename w =
    let w1 := after_mkdir ["xeno-canto"] w in
    match result_mapM flattened_record recordings with
    | Raise e => (Raise e, w1)
    | Ok flattened =>
        if writable w1 filename then
          (Ok (),
           World (net w1) (sent w1) (dirs w1)
             (<[resolve filename :=
                  Table (columns (pd_DataFrame flattened))
                        (rows (pd_DataFrame flattened))]> (files w1))
             (trace w1 ++ [EPrint ("Recordings is saved into " +:+ filename)]))
        else (Raise (OSError filename), w1)
    end.
Proof.
  intros Hfile. unfold save_recordings_to_csv.
  rewrite xeno_canto_step by done. cbn zeta.
  unfold mbind at 1, M_bind, lift.
  destruct (result_mapM flattened_record recordings) as [flattened|e]; [|done].
  unfold mbind, M_bind, to_csv, write_file.
  by destruct (writable _ filename).
Qed.

Lemma result_mapM_total {A B} (f : A → result B) (l : list A) :
  Forall (λ x, ∃ y, f x = Ok y) l → ∃ ys, result_mapM f l = Ok ys.
Proof.
  induction 1 as [|x l [y Hy] _ [ys Hys]]; [by eexists|].
  exists (y :: ys). by rewrite result_mapM_cons, Hy, Hys.
Qed.



(** *** The cells of the table *)











(** ** Stage 3: the download loop *)

(** One row, by what it holds and what its GET meets. *)
Lemma download_row_step output_dir cols row w :
  download_row output_dir cols row w =
    match row_get cols row "file", row_get cols row "file-name" with
    | Raise e, _ => (Raise e, w)
    | Ok _, Raise e => (Raise e, w)
    | Ok url, Ok (VStr name) =>
        let output_path := join_paths output_dir name in
        match url with
        | VStr u =>
            let w1 := World (net w) (S (sent w)) (dirs w) (files w)
                            (trace w ++ [EGet u]) in
            match download_fails (net w (sent w) u) with
            | Some msg =>
                (Ok (), emit (EPrint ("Failed to download " +:+ name +:+ ": " +:+ msg)) w1)
            | None =>
                match net w (sent w) u with
                | Responds r =>
                    write_file output_path (Bytes (content r)) (emit (EOpen output_path) w1)
                | NetworkFailure _ => (Ok (), w1)
                end
            end
        | _ =>
            (Ok (), emit (EPrint ("Failed to download " +:+ name +:+ ": Invalid URL")) w)
        end
    | Ok _, Ok _ => (Raise TypeError, w)
    end.
Proof.
  unfold download_row, mbind, M_bind, lift.
  destruct (row_get cols row "file") as [url|e]; [|done].
  destruct (row_get cols row "file-name") as [cell|e]; [|done].
  destruct cell as [| | | |name| |]; try done.
  cbn [os_path_join as_str].
  unfold try_except_request, requests_get_cell, requests_get, write_binary,
    write_file, download_fails, raise_for_status, lift, print.
  destruct url as [| | | |u| |]; try done.
  destruct (net w (sent w) u) as [msg|[[msg|] body data]]; cbn; try done.
  by destruct (writable _ _).
Qed.

Lemma download_rows_cons output_dir cols row rs w :
  download_rows output_dir cols (row :: rs) w =
    match download_row output_dir cols row w with
    | (Ok _, w') => download_rows output_dir cols rs w'
    | (Raise e, w') => (Raise e, w')
    end.
Proof.
  cbn [download_rows]. unfold mbind, M_bind.
  by destruct (download_row output_dir cols row w) as [[[]|e] w'].
Qed.

Lemma writable_same_dirs (w w' : world) path :
  dirs w' = dirs w → writable w' path = writable w path.
Proof. unfold writable, is_dir. by intros ->. Qed.

(** C5.  A row whose GET meets a network failure, or a status for which
    [raise_for_status] raises (by [http_error] a 4xx or a 5xx), does not
    stop the loop: the exception is caught, one line naming the file
    name of the row and the error is printed, and the loop goes on with
    the rows that remain, from a world where nothing else has changed. *)
Theorem failed_download_is_logged_and_skipped
    (output_dir : string) (cols : list string) (row : list value)
    (rs : list (list value)) (w : world) (u name msg : string) :
  row_get cols row "file" = Ok (VStr u) →
  row_get cols row "file-name" = Ok (VStr name) →
  download_fails (net w (sent w) u) = Some msg →
  download_rows output_dir cols (row :: rs) w =
    download_rows output_dir cols rs
      (World (net w) (S (sent w)) (dirs w) (files w)
         (trace w ++ [EGet u;
                      EPrint ("Failed to download " +:+ name +:+ ": " +:+ msg)])).
Proof.
  intros Hurl Hname Hfail.
  rewrite download_rows_cons, download_row_step, Hurl, Hname. cbn zeta.
  rewrite Hfail. unfold emit. cbn [net sent dirs files trace].
  by rewrite <- app_assoc.
Qed.

(** The events added to the trace, read off a world that is written out. *)
Ltac added_trace :=
  unfold added, emit; cbn [snd trace]; rewrite <- ?app_assoc;
  rewrite drop_app_length.

(** C9.  The output file of a row is opened only once the GET of that
    row has returned a response that has passed the status check, and a
    row whose GET meets a network failure, or a status for which
    [raise_for_status] raises (by [http_error] a 4xx or a 5xx), opens
    nothing and leaves the files and directories as they were. *)
Theorem failed_download_leaves_no_file
    (output_dir : string) (cols : list string) (row : list value) (w : world) :
  let out := download_row output_dir cols row w in
  (∀ path, path ∈ opens (added w out.2) →
     ∃ u r, row_get cols row "file" = Ok (VStr u)
            ∧ net w (sent w) u = Responds r
            ∧ status_error r = None
            ∧ added w out.2 = [EGet u; EOpen path])
  ∧ (∀ u msg, row_get cols row "file" = Ok (VStr u) →
       download_fails (net w (sent w) u) = Some msg →
       files out.2 = files w ∧ dirs out.2 = dirs w ∧ opens (added w out.2) = []).
Proof.
  cbn zeta. rewrite download_row_step.
  assert (Hsame : added w w = []) by (apply added_app; by rewrite app_nil_r).
  split.
  - intros path.
    destruct (row_get cols row "file") as [url|e];
      [|cbn [snd]; rewrite Hsame; by intros ?%elem_of_nil].
    destruct (row_get cols row "file-name") as [cell|e];
      [|cbn [snd]; rewrite Hsame; by intros ?%elem_of_nil].
    destruct cell as [| | | |name| |];
      try (cbn [snd]; rewrite Hsame; by intros ?%elem_of_nil).
    cbn zeta.
    destruct url as [| | | |u| |];
      try (added_trace; by intros ?%elem_of_nil).
    destruct (net w (sent w) u) as [msg|[[msg|] body data]] eqn:Hnet;
      cbn [download_fails status_error content].
    + added_trace. by intros ?%elem_of_nil.
    + added_trace. by intros ?%elem_of_nil.
    + unfold write_file.
      destruct (writable _ _); added_trace; cbn;
        intros ->%list_elem_of_singleton; eexists u, _; by repeat split.
  - intros u msg Hurl Hfail. rewrite Hurl.
    destruct (row_get cols row "file-name") as [cell|e];
      [|cbn [snd]; by rewrite Hsame].
    destruct cell as [| | | |name| |]; try (cbn [snd]; by rewrite Hsame).
    cbn zeta. rewrite Hfail. added_trace. by cbn.
Qed.

(** C10.  The handler of [download_row] catches request exceptions only.
    A row whose file name is not a str raises TypeError where the output
    path is built, before any GET; a row whose download succeeds but
    whose output path cannot be opened raises OSError.  Either exception
    leaves [download_rows] at once: the rows that remain are never
    tried. *)
Theorem local_error_aborts_batch
    (output_dir : string) (cols : list string) (row : list value)
    (rs : list (list value)) (w : world) (url cell : value) :
  row_get cols row "file" = Ok url →
  row_get cols row "file-name" = Ok cell →
  ((∀ name, cell ≠ VStr name) →
     download_rows output_dir cols (row :: rs) w = (Raise TypeError, w))
  ∧ (∀ u name r,
       url = VStr u → cell = VStr name →
       net w (sent w) u = Responds r → status_error r = None →
       writable w (join_paths output_dir name) = false →
       download_rows output_dir cols (row :: rs) w =
         (Raise (OSError (join_paths output_dir name)),
          World (net w) (S (sent w)) (dirs w) (files w)
            (trace w ++ [EGet u; EOpen (join_paths output_dir name)]))).
Proof.
  intros Hurl Hcell. split.
  - intros Hnot. rewrite download_rows_cons, download_row_step, Hurl, Hcell.
    destruct cell as [| | | |name| |]; try done. by destruct (Hnot name).
  - intros u name r -> -> Hnet Hok Hwrite.
    rewrite download_rows_cons, download_row_step, Hurl, Hcell. cbn zeta.
    unfold download_fails. rewrite Hnet, Hok.
    unfold write_file. rewrite (writable_same_dirs w) by done.
    rewrite Hwrite. unfold emit. cbn [net sent dirs files trace].
    by rewrite <- app_assoc.
Qed.

Lemma local_error_aborts_batch_witness :
  (download_rows "audio" sample_cols
     ([VInt 7; VStr "https://xeno-canto.org/7/download"; VNaN] :: [sample_row 8])
     (world_with_audio_dir (λ _ _, audio "RIFF"))
   = (Raise TypeError, world_with_audio_dir (λ _ _, audio "RIFF")))
  ∧ (download_rows "audio" sample_cols
       ([VInt 7; VStr "https://xeno-canto.org/7/download"; VStr "2024/XC7.mp3"]
          :: [sample_row 8])
       (world_with_audio_dir (λ _ _, audio "RIFF"))
     = (Raise (OSError "audio/2024/XC7.mp3"),
        World (λ _ _, audio "RIFF") 1 {[ ["audio"] ]} ∅
          [EGet "https://xeno-canto.org/7/download"; EOpen "audio/2024/XC7.mp3"])).
Proof.
  split.
  - apply (proj1 (local_error_aborts_batch "audio" sample_cols
                    [VInt 7; VStr "https://xeno-canto.org/7/download"; VNaN]
                    [sample_row 8]
                    (world_with_audio_dir (λ _ _, audio "RIFF"))
                    (VStr "https://xeno-canto.org/7/download") VNaN
                    eq_refl eq_refl)).
    intros name. discriminate.
  - apply (proj2 (local_error_aborts_batch "audio" sample_cols
                    [VInt 7; VStr "https://xeno-canto.org/7/download";
                     VStr "2024/XC7.mp3"]
                    [sample_row 8]
                    (world_with_audio_dir (λ _ _, audio "RIFF"))
                    (VStr "https://xeno-canto.org/7/download") (VStr "2024/XC7.mp3")
                    eq_refl eq_refl)
             "https://xeno-canto.org/7/download" "2024/XC7.mp3"
             (Response None (inl "not JSON") "RIFF"));
      [reflexivity|reflexivity|reflexivity|reflexivity|vm_compute; reflexivity].
Defined.

Lemma failed_download_is_logged_and_skipped_witness :
  download_rows "audio" sample_cols (sample_row 3 :: [sample_row 4; sample_row 5])
    world_before_third
  = download_rows "audio" sample_cols [sample_row 4; sample_row 5]
      (World net_third_404 3 (dirs world_before_third) (files world_before_third)
         (trace world_before_third ++
            [EGet "https://xeno-canto.org/3/download";
             EPrint "Failed to download XC3.mp3: 404 Client Error"])).
Proof.
  apply (failed_download_is_logged_and_skipped "audio" sample_cols (sample_row 3)
           [sample_row 4; sample_row 5] world_before_third
           "https://xeno-canto.org/3/download" "XC3.mp3" "404 Client Error").
  - vm_compute. reflexivity.
  - vm_compute. reflexivity.
  - vm_compute. reflexivity.
Defined.

Lemma failed_download_leaves_no_file_witness :
  files (download_row "audio" sample_cols (sample_row 3) world_before_third).2
    = files world_before_third
  ∧ dirs (download_row "audio" sample_cols (sample_row 3) world_before_third).2
    = dirs world_before_third
  ∧ opens (added world_before_third
             (download_row "audio" sample_cols (sample_row 3) world_before_third).2)
    = [].
Proof.
  apply (proj2 (failed_download_leaves_no_file "audio" sample_cols (sample_row 3)
                  world_before_third)
           "https://xeno-canto.org/3/download" "404 Client Error").
  - vm_compute. reflexivity.
  - vm_compute. reflexivity.
Defined.

(** The example of the specification: five rows, the third GET answered
    with 404.  Four files are saved, one failure is printed with the
    file name of row 3, and the run ends without an exception. *)
Lemma download_five_rows_third_404 :
  let out := download_audio_files "xeno-canto/recordings.csv" "xeno-canto/audio_files"
               (world_with_table net_third_404) in
  out.1 = Ok ()
  ∧ ((λ name, files out.2 !! ["xeno-canto"; "audio_files"; name]) <$>
       ["XC1.mp3"; "XC2.mp3"; "XC3.mp3"; "XC4.mp3"; "XC5.mp3"])
    = [Some (Bytes "RIFF"); Some (Bytes "RIFF"); None;
       Some (Bytes "RIFF"); Some (Bytes "RIFF")]
  ∧ prints (trace out.2) = ["Failed to download XC3.mp3: 404 Client Error"]
  ∧ sent out.2 = 5%nat.
Proof. vm_compute. repeat split; reflexivity. Qed.

(** *** Statuses that are neither a success nor an error *)

Lemma http_error_codes (code : Z) (reason url : string) :
  is_Some (http_error code reason url) ↔ 400 ≤ code < 600.
Proof.
  unfold http_error.
  destruct (Z.leb_spec 400 code) as [?|?], (Z.ltb_spec code 500) as [?|?],
    (Z.leb_spec 500 code) as [?|?], (Z.ltb_spec code 600) as [?|?]; cbn [andb];
    split; intros Hcode; try lia; try (by eexists); by destruct Hcode.
Qed.

(** The handler of [download_row] is entered for an answer with a status
    code exactly when the code is a 4xx or a 5xx. *)
Lemma download_fails_answers (code : Z) (reason url body : string) :
  is_Some (download_fails (answers code reason url body)) ↔ 400 ≤ code < 600.
Proof. apply http_error_codes. Qed.

(** An answer with any other status passes the check, a 3xx that the
    client did not follow like a 2xx: nothing is printed, and the body
    is written at the output path as the audio file. *)
Lemma download_row_status_passes
    (output_dir : string) (cols : list string) (row : list value) (w : world)
    (u name : string) (code : Z) (reason body : string) :
  row_get cols row "file" = Ok (VStr u) →
  row_get cols row "file-name" = Ok (VStr name) →
  net w (sent w) u = answers code reason u body →
  ¬ (400 ≤ code < 600) →
  download_row output_dir cols row w =
    write_file (join_paths output_dir name) (Bytes body)
      (World (net w) (S (sent w)) (dirs w) (files w)
         (trace w ++ [EGet u; EOpen (join_paths output_dir name)])).
Proof.
  intros Hu Hname Hnet Hcode.
  rewrite download_row_step, Hu, Hname. cbn zeta. rewrite Hnet.
  destruct (download_fails (answers code reason u body)) as [msg|] eqn:Hfails.
  - destruct Hcode. apply (download_fails_answers code reason u body).
    rewrite Hfails. by eexists.
  - unfold answers. cbn [content]. unfold emit. cbn [net sent dirs files trace].
    by rewrite <- app_assoc.
Qed.

(** C5 as stated fails at a status that is not 2xx and is no error for
    the status check.  The GET of the row is answered 300 Multiple
    Choices: nothing is caught and nothing is printed, and the page of
    links is saved as the audio file of the row. *)
Lemma multiple_choices_answer_is_not_logged :
  let w := world_with_audio_dir net_multiple_choices in
  let out := download_rows "audio" sample_cols [sample_row 3] w in
  success_status 300 = false
  ∧ out.1 = Ok ()
  ∧ trace out.2 = [EGet "https://xeno-canto.org/3/download"; EOpen "audio/XC3.mp3"]
  ∧ prints (trace out.2) = []
  ∧ files out.2 !! ["audio"; "XC3.mp3"] = Some (Bytes "<html>choose</html>").
Proof. vm_compute. repeat split; reflexivity. Qed.

(** C9 as stated fails at such a status as well.  The GET of the row is
    answered 304 Not Modified, which has no body: where no file was, an
    empty file is made at the output path of the row, and where an
    earlier run had saved the audio, the file is cut down to nothing. *)
Lemma not_modified_answer_leaves_empty_file :
  let w := world_with_audio_dir net_not_modified in
  let w' := world_with_old_audio net_not_modified in
  success_status 304 = false
  ∧ files w !! ["audio"; "XC3.mp3"] = None
  ∧ files (download_row "audio" sample_cols (sample_row 3) w).2
      !! ["audio"; "XC3.mp3"] = Some (Bytes EmptyString)
  ∧ files w' !! ["audio"; "XC3.mp3"] = Some (Bytes "RIFF")
  ∧ files (download_row "audio" sample_cols (sample_row 3) w').2
      !! ["audio"; "XC3.mp3"] = Some (Bytes EmptyString).
Proof. vm_compute. repeat split; reflexivity. Qed.

(** ** The stages together *)

(** C3, at the empty list.  [save_recordings_to_csv] returns, but the
    frame built from no row has no column: the header line it writes
    names none of the declared columns, and [download_audio_files]
    applied to that file raises EmptyDataError where it reads the table,
    instead of going through zero rows. *)
Theorem empty_recordings_table_cannot_be_read (net : nat → string → http_result) :
  let saved := save_recordings_to_csv [] "xeno-canto/recordings.csv" (fresh net) in
  saved.1 = Ok ()
  ∧ files saved.2 !! resolve "xeno-canto/recordings.csv" = Some (Table [] [])
  ∧ length COLUMNS = 43%nat
  ∧ (download_audio_files "xeno-canto/recordings.csv" "xeno-canto/audio_files"
       saved.2).1 = Raise EmptyDataError.
Proof. vm_compute. repeat split; reflexivity. Qed.

(** C4, at a file name outside "xeno-canto".  The directory made by
    [save_recordings_to_csv] is "xeno-canto", whatever [filename] is: the
    directory "out" is still missing when the table is written, and the
    call ends with an exception and no file. *)
Theorem save_recordings_to_csv_misses_directory
    (net : nat → string → http_result) (recordings : list value) :
  let out := save_recordings_to_csv recordings "out/recordings.csv" (fresh net) in
  (∃ e, out.1 = Raise e)
  ∧ (Forall (λ record, ∃ row, flattened_record record = Ok row) recordings →
     out.1 = Raise (OSError "out/recordings.csv"))
  ∧ dirs out.2 = {[ ["xeno-canto"] ]}
  ∧ files out.2 = ∅.
Proof.
  cbn zeta. rewrite save_recordings_to_csv_step by reflexivity. cbn zeta.
  assert (Hw : writable (after_mkdir ["xeno-canto"] (fresh net)) "out/recordings.csv"
               = false) by (vm_compute; reflexivity).
  rewrite Hw.
  assert (Hdirs : dirs (after_mkdir ["xeno-canto"] (fresh net)) = {[ ["xeno-canto"] ]}).
  { unfold after_mkdir, fresh. cbn [dirs]. apply union_empty_l_L. }
  destruct (result_mapM flattened_record recordings) as [flattened|e] eqn:Hmap;
    cbn [fst snd].
  - split; [by eexists|]. split; [done|]. split; [exact Hdirs|done].
  - split; [by eexists|]. split; [|split; [exact Hdirs|done]].
    intros Hflat. destruct (result_mapM_total _ _ Hflat) as [ys Hys]. congruence.
Qed.






(** ** More on the fetch loop *)








(** Whatever the server does, the loop returns, has asked for pages
    [page], [page + 1], ... in this order and for no more of them than
    [max_pages] allows, and has left the file system alone. *)
Lemma fetch_loop_frame (fuel : nat) :
  ∀ (query : string) (max_pages page : Z) (recordings : list value) (w : world),
    (Z.to_nat (max_pages - page + 1) < fuel)%nat →
    ∃ r w' (n : nat) evs,
      fetch_loop fuel query max_pages page recordings w = Some (r, w')
      ∧ net w' = net w ∧ dirs w' = dirs w ∧ files w' = files w
      ∧ sent w' = (sent w + n)%nat
      ∧ Z.of_nat n ≤ Z.max 0 (max_pages - page + 1)
      ∧ trace w' = trace w ++ evs
      ∧ gets evs = page_url query <$> seqZ page (Z.of_nat n).
Proof.
  induction fuel as [|fuel IH]; intros query max_pages page recordings w Hfuel; [lia|].
  rewrite fetch_loop_unfold.
  destruct (Z.leb_spec page max_pages) as [Hle|Hgt].
  - rewrite fetch_page_step. cbn zeta.
    destruct (read_page _) as [msg|new numPages|e].
    + eexists _, _, 1%nat, [_; _]. unfold emit. cbn [net sent dirs files trace].
      rewrite <- app_assoc.
      split; [reflexivity|]; split_and!; cbn [net sent dirs files trace]; try reflexivity; lia.
    + destruct (page >=? numPages).
      * eexists _, _, 1%nat, [_]. cbn [net sent dirs files trace].
        split; [reflexivity|]; split_and!; cbn [net sent dirs files trace]; try reflexivity; lia.
      * set (w1 := emit (ESleep 1) _).
        destruct (IH query max_pages (page + 1) (recordings ++ new) w1)
          as (r & w' & n & evs & Hrun & Hnet & Hdirs & Hfiles & Hsent & Hn & Htrace & Hgets);
          [lia|].
        eexists r, w', (S n), (EGet (page_url query page) :: ESleep 1 :: evs).
        rewrite Hrun, Hnet, Hdirs, Hfiles, Hsent, Htrace.
        unfold w1, emit. cbn [net sent dirs files trace].
        rewrite <- !app_assoc.
        split; [reflexivity|]; split_and!; cbn [net sent dirs files trace]; try reflexivity; try lia.
        cbn [gets omap list_omap]. fold (gets evs). rewrite Hgets.
        rewrite (seqZ_cons page) by lia. cbn [fmap list_fmap].
        do 3 f_equal; lia.
    + eexists _, _, 1%nat, [_]. cbn [net sent dirs files trace].
      split; [reflexivity|]; split_and!; cbn [net sent dirs files trace]; try reflexivity; lia.
  - eexists _, w, 0%nat, [].
    split_and!; try reflexivity; try lia. by rewrite app_nil_r.
Qed.

(** X1.  Whatever the server answers, [get_recordings] returns or
    raises after finitely many turns; it has then asked for pages 1, 2,
    ..., n in this order with n at most [max_pages], and it has changed
    neither the directories nor the files. *)
Theorem get_recordings_asks_in_order_within_limit
    (query : string) (max_pages : Z) (w : world) :
  ∃ r w' (n : nat),
    get_recordings query max_pages w = Some (r, w')
    ∧ net w' = net w ∧ dirs w' = dirs w ∧ files w' = files w
    ∧ sent w' = (sent w + n)%nat
    ∧ Z.of_nat n ≤ Z.max 0 max_pages
    ∧ gets (added w w') = page_url query <$> seqZ 1 (Z.of_nat n).
Proof.
  destruct (fetch_loop_frame (S (Z.to_nat max_pages)) query max_pages 1 [] w)
    as (r & w' & n & evs & Hrun & Hnet & Hdirs & Hfiles & Hsent & Hn & Htrace & Hgets);
    [lia|].
  exists r, w', n. split; [exact Hrun|].
  split_and!; try done; [lia|].
  by rewrite (added_app _ _ evs Htrace).
Qed.







(** ** More on flattening and the table *)

Lemma result_mapM_ext {A B} (f g : A → result B) (l : list A) :
  Forall (λ x, f x = g x) l → result_mapM f l = result_mapM g l.
Proof.
  induction 1 as [|x l Hx _ IH]; [done|].
  by rewrite !result_mapM_cons, Hx, IH.
Qed.

Lemma result_mapM_first_raise {A B} (f : A → result B) (l1 : list A) x l2 e :
  Forall (λ y, ∃ z, f y = Ok z) l1 →
  f x = Raise e →
  result_mapM f (l1 ++ x :: l2) = Raise e.
Proof.
  intros Hl1 Hx. induction Hl1 as [|y l1 [z Hz] _ IH]; cbn [app].
  - by rewrite result_mapM_cons, Hx.
  - by rewrite result_mapM_cons, Hz, IH.
Qed.

Lemma result_mapM_some_raise {A B} (f : A → result B) (l : list A) :
  Exists (λ x, ∃ e, f x = Raise e) l → ∃ e, result_mapM f l = Raise e.
Proof.
  induction 1 as [x l [e He]|x l _ [e IH]]; rewrite result_mapM_cons.
  - exists e. by rewrite He.
  - destruct (f x) as [y|e']; [|by eexists]. rewrite IH. by eexists.
Qed.

(** An expression of the display looks at one field of the record. *)
Lemma eval_cell_ext (d d' : list (string * value)) (e : cell_expr) :
  dict_get d (field_read e) = dict_get d' (field_read e) →
  eval_cell e (VDict d) = eval_cell e (VDict d').
Proof.
  destruct e as [key|outer key|]; cbn [field_read eval_cell]; intros Heq.
  - unfold plain, py_get. by rewrite Heq.
  - unfold nested, py_get, py_index. by rewrite Heq.
  - unfold also_joined, py_get. by rewrite Heq.
Qed.

(** X5.  [flattened_record] looks at the declared fields only: two
    records that agree on them are flattened alike, so a field the table
    has no column for is dropped without a trace. *)
Theorem flattened_record_reads_declared_fields (d d' : list (string * value)) :
  Forall (λ field, dict_get d field = dict_get d' field) FIELDS →
  flattened_record (VDict d) = flattened_record (VDict d').
Proof.
  intros Hagree. unfold flattened_record.
  apply result_mapM_ext. unfold FIELDS in Hagree.
  rewrite Forall_fmap in Hagree.
  eapply Forall_impl; [exact Hagree|].
  intros [name e] Heq. cbn [fst snd] in *.
  by rewrite (eval_cell_ext d d' e Heq).
Qed.

Lemma flattened_record_reads_declared_fields_witness :
  flattened_record (VDict (("uploader-note", VStr "draft") :: record_with_sono)) =
  flattened_record (VDict record_with_sono).
Proof.
  apply (flattened_record_reads_declared_fields
           (("uploader-note", VStr "draft") :: record_with_sono) record_with_sono).
  repeat (apply Forall_cons; split; [reflexivity|]). apply Forall_nil_2.
Defined.

(** X6.  A column that is a plain copy holds the value the record has
    under its key, whatever that value is, and None when the key is
    absent: an explicit null and an absent key give the same cell. *)
Theorem flattened_record_copies_plain
    (d row : list (string * value)) (name key : string) :
  flattened_record (VDict d) = Ok row →
  (name, Plain key) ∈ ENTRIES →
  dict_get row name = Some (default VNone (dict_get d key)).
Proof.
  intros Hrow Hin.
  destruct (flattened_record_cell _ _ _ _ Hrow Hin) as (v & Hv & Hget).
  cbn [eval_cell] in Hv. unfold plain, py_get in Hv. by simplify_eq.
Qed.

Lemma flattened_record_copies_plain_witness :
  ∃ row, flattened_record (VDict record_with_sono) = Ok row
         ∧ dict_get row "file-name" = Some (VStr "XC881.mp3").
Proof.
  eexists. split; [vm_compute; reflexivity|].
  apply (flattened_record_copies_plain record_with_sono _ "file-name" "file-name").
  - vm_compute. reflexivity.
  - in_entries.
Defined.

(** X7.  When "sono" or "osci" is a mapping that is not empty, each of
    its sub-columns holds the entry of the mapping under the sub-key,
    and None when the mapping lacks the sub-key. *)
Theorem flattened_record_nested_urls
    (d row s : list (string * value)) (name outer key : string) :
  flattened_record (VDict d) = Ok row →
  (name, Nested outer key) ∈ ENTRIES →
  dict_get d outer = Some (VDict s) →
  s ≠ [] →
  dict_get row name = Some (default VNone (dict_get s key)).
Proof.
  intros Hrow Hin Houter Hs.
  destruct (flattened_record_cell _ _ _ _ Hrow Hin) as (v & Hv & Hget).
  cbn [eval_cell] in Hv. unfold nested, py_get, py_index in Hv.
  rewrite Houter in Hv. cbn [default mbind result_bind] in Hv.
  assert (Htrue : py_truthy (VDict s) = true) by by destruct s.
  unfold id in Hv. rewrite Htrue in Hv. by simplify_eq.
Qed.

Lemma flattened_record_nested_urls_witness :
  ∃ row, flattened_record (VDict record_with_sono) = Ok row
         ∧ dict_get row "sono_full"
           = Some (VStr "//xeno-canto.org/sono/881-full.png")
         ∧ dict_get row "sono_med" = Some VNone.
Proof.
  eexists. split; [vm_compute; reflexivity|]. split.
  - apply (flattened_record_nested_urls record_with_sono _
             [("small", VStr "//xeno-canto.org/sono/881-small.png");
              ("full", VStr "//xeno-canto.org/sono/881-full.png")]
             "sono_full" "sono" "full");
      [vm_compute; reflexivity|in_entries|reflexivity|discriminate].
  - apply (flattened_record_nested_urls record_with_sono _
             [("small", VStr "//xeno-canto.org/sono/881-small.png");
              ("full", VStr "//xeno-canto.org/sono/881-full.png")]
             "sono_med" "sono" "med");
      [vm_compute; reflexivity|in_entries|reflexivity|discriminate].
Defined.

(** X8.  A "sono" field that is true as a test but is no mapping (a str,
    a list that is not empty, a number other than 0) makes
    [flattened_record] raise AttributeError. *)
Theorem flattened_record_sono_not_a_mapping (d : list (string * value)) (v : value) :
  dict_get d "sono" = Some v →
  py_truthy v = true →
  (∀ s, v ≠ VDict s) →
  flattened_record (VDict d) = Raise AttributeError.
Proof.
  intros Hsono Htrue Hnot. unfold flattened_record.
  change ENTRIES
    with (take 19 ENTRIES ++ ("sono_small", Nested "sono" "small") :: drop 20 ENTRIES).
  apply result_mapM_first_raise.
  - repeat (apply Forall_cons; split; [by eexists|]). apply Forall_nil_2.
  - cbn [fst snd eval_cell]. unfold nested, py_get, py_index.
    rewrite Hsono. cbn [default mbind result_bind]. unfold id. rewrite Htrue.
    destruct v as [| | | | | |s]; try done. by destruct (Hnot s).
Qed.

Lemma flattened_record_sono_not_a_mapping_witness :
  flattened_record (VDict [("id", VStr "881"); ("sono", VStr "n/a")])
  = Raise AttributeError.
Proof.
  apply (flattened_record_sono_not_a_mapping
           [("id", VStr "881"); ("sono", VStr "n/a")] (VStr "n/a")).
  - reflexivity.
  - reflexivity.
  - intros s. discriminate.
Defined.

(** X9.  An "also" field that is present and null is not read as an
    absent one: its expression raises TypeError, and the record cannot
    be flattened. *)
Theorem flattened_record_also_null (d : list (string * value)) :
  dict_get d "also" = Some VNone →
  also_joined (VDict d) = Raise TypeError
  ∧ ∃ e, flattened_record (VDict d) = Raise e.
Proof.
  intros Halso.
  assert (Hcell : also_joined (VDict d) = Raise TypeError).
  { unfold also_joined, py_get. by rewrite Halso. }
  split; [exact Hcell|].
  destruct (flattened_record (VDict d)) as [row|e] eqn:Hrow; [|by eexists].
  destruct (flattened_record_cell (VDict d) row "also" AlsoJoined Hrow)
    as (v & Hv & _); [in_entries|].
  cbn [eval_cell] in Hv. congruence.
Qed.

Lemma flattened_record_also_null_witness :
  also_joined (VDict [("id", VStr "881"); ("also", VNone)]) = Raise TypeError
  ∧ ∃ e, flattened_record (VDict [("id", VStr "881"); ("also", VNone)]) = Raise e.
Proof.
  apply (flattened_record_also_null [("id", VStr "881"); ("also", VNone)]).
  reflexivity.
Defined.

(** X10.  One record that cannot be flattened is enough for
    [save_recordings_to_csv] to raise before it writes or prints
    anything: only the directory "xeno-canto" has been made, and no
    table exists for the records that were well formed. *)
Theorem save_recordings_to_csv_all_or_nothing
    (recordings : list value) (filename : string) (w : world) :
  Exists (λ record, ∃ e, flattened_record record = Raise e) recordings →
  files w !! ["xeno-canto"] = None →
  ∃ e, save_recordings_to_csv recordings filename w
       = (Raise e, after_mkdir ["xeno-canto"] w).
Proof.
  intros Hbad Hfile.
  destruct (result_mapM_some_raise _ _ Hbad) as [e He].
  exists e. rewrite save_recordings_to_csv_step by done. cbn zeta.
  by rewrite He.
Qed.

Lemma save_recordings_to_csv_all_or_nothing_witness :
  ∃ e, save_recordings_to_csv [sample_record "101"; VStr "XC102"]
         "xeno-canto/recordings.csv" (fresh (λ _ _, NetworkFailure "offline"))
       = (Raise e,
          after_mkdir ["xeno-canto"] (fresh (λ _ _, NetworkFailure "offline"))).
Proof.
  apply (save_recordings_to_csv_all_or_nothing
           [sample_record "101"; VStr "XC102"] "xeno-canto/recordings.csv"
           (fresh (λ _ _, NetworkFailure "offline"))).
  - apply Exists_cons_tl, Exists_cons_hd. exists AttributeError. reflexivity.
  - reflexivity.
Defined.



(** ** More on the download loop *)




Lemma download_row_files output_dir cols row w (q : list string) :
  (∀ name, row_get cols row "file-name" = Ok (VStr name) →
           resolve (join_paths output_dir name) ≠ q) →
  files (download_row output_dir cols row w).2 !! q = files w !! q.
Proof.
  intros Hq. rewrite download_row_step.
  destruct (row_get cols row "file") as [url|e]; [|done].
  destruct (row_get cols row "file-name") as [cell|e]; [|done].
  destruct cell as [| | | |name| |]; try done.
  cbn zeta. destruct url as [| | | |u| |]; try done.
  destruct (net w (sent w) u) as [msg|[[msg|] body data]]; try done.
  cbn [download_fails status_error content]. unfold write_file.
  destruct (writable _ _); [|done].
  cbn [snd files emit]. apply lookup_insert_ne. by apply Hq.
Qed.

Lemma download_rows_files output_dir cols rs (q : list string) :
  ∀ w,
    Forall (λ row, ∀ name, row_get cols row "file-name" = Ok (VStr name) →
                           resolve (join_paths output_dir name) ≠ q) rs →
    files (download_rows output_dir cols rs w).2 !! q = files w !! q.
Proof.
  induction rs as [|row rs IH]; intros w Hq; [done|].
  apply Forall_cons in Hq as [Hrow Hrs].
  rewrite download_rows_cons.
  pose proof (download_row_files output_dir cols row w q Hrow) as Hstep.
  destruct (download_row output_dir cols row w) as [[[]|e] w1]; cbn [snd] in *.
  - by rewrite IH.
  - done.
Qed.





(** X14.  A table with rows that lacks the column "file" or the column
    "file-name" makes the loop raise KeyError at its first row, before
    any GET and with nothing written; the same table without rows goes
    through without error. *)
Theorem download_rows_missing_column
    (output_dir : string) (cols : list string) (row : list value)
    (rs : list (list value)) (w : world) :
  index_of "file" cols = None ∨ index_of "file-name" cols = None →
  (∃ key, (key = "file" ∨ key = "file-name")
          ∧ download_rows output_dir cols (row :: rs) w = (Raise (KeyError key), w))
  ∧ download_rows output_dir cols [] w = (Ok (), w).
Proof.
  intros Hmiss. split; [|reflexivity].
  rewrite download_rows_cons, download_row_step. unfold row_get.
  destruct (index_of "file" cols) as [i|] eqn:Hfile.
  - destruct Hmiss as [?|Hname]; [done|]. rewrite Hname.
    exists "file-name". by split; [right|].
  - exists "file". by split; [left|].
Qed.

Lemma download_rows_missing_column_witness :
  (∃ key, (key = "file" ∨ key = "file-name")
          ∧ download_rows "audio" ["id"; "file"]
              ([VInt 1; VStr "https://xeno-canto.org/1/download"] :: [])
              (world_with_audio_dir (λ _ _, audio "RIFF"))
            = (Raise (KeyError key), world_with_audio_dir (λ _ _, audio "RIFF")))
  ∧ download_rows "audio" ["id"; "file"] []
      (world_with_audio_dir (λ _ _, audio "RIFF"))
    = (Ok (), world_with_audio_dir (λ _ _, audio "RIFF")).
Proof.
  apply (download_rows_missing_column "audio" ["id"; "file"]
           [VInt 1; VStr "https://xeno-canto.org/1/download"] []
           (world_with_audio_dir (λ _ _, audio "RIFF"))).
  right. reflexivity.
Defined.



(** X16.  Whatever the server answers and however the loop ends, it
    changes no file other than the output paths of its rows.  Take a
    plain path [other], and let the output path of every row be plain,
    start where [other] starts (both at the root or both at the working
    directory) and differ from it: then [other] holds what it held
    before. *)
Theorem download_rows_touches_output_paths_only
    (output_dir : string) (cols : list string) (rs : list (list value))
    (w : world) (other : string) :
  plain_path other = true →
  Forall (λ row, ∀ name, row_get cols row "file-name" = Ok (VStr name) →
                         plain_path (join_paths output_dir name) = true
                         ∧ same_start (join_paths output_dir name) other = true
                         ∧ resolve (join_paths output_dir name) ≠ resolve other) rs →
  files (download_rows output_dir cols rs w).2 !! resolve other
    = files w !! resolve other.
Proof.
  intros _ Hrows. apply download_rows_files.
  eapply Forall_impl; [exact Hrows|].
  intros row Hrow name Hname. by destruct (Hrow name Hname) as (_ & _ & Hne).
Qed.

Lemma download_rows_touches_output_paths_only_witness :
  files (download_rows "xeno-canto" sample_cols [sample_row 1; sample_row 2]
           (world_with_table (λ _ _, audio "RIFF"))).2
    !! resolve "xeno-canto/recordings.csv"
  = files (world_with_table (λ _ _, audio "RIFF")) !! resolve "xeno-canto/recordings.csv".
Proof.
  apply (download_rows_touches_output_paths_only "xeno-canto" sample_cols
           [sample_row 1; sample_row 2] (world_with_table (λ _ _, audio "RIFF"))
           "xeno-canto/recordings.csv").
  - vm_compute. reflexivity.
  - repeat (apply Forall_cons; split;
            [intros name [= <-]; split; [vm_compute; reflexivity|];
             split; [vm_compute; reflexivity|vm_compute; discriminate]|]).
    apply Forall_nil_2.
Defined.



(** ** The script as a whole *)







